(** * DataContainer: the result-accumulation container of Qiskit-Aer

    A shallow embedding of [src/framework/results/data/data_container.hpp]
    (namespace [AER]).  The container owns three string-keyed maps and an
    [enabled_] flag; it is filled by gated insertions, merged with [combine]
    (copy and move form) and exported into a JSON document by [to_json].

    The string-keyed maps ([stringmap_t], an unordered map) are [gmap string];
    the loops of the source that range over such a map are [map_fold]s.  The
    two snapshot classes and the payload type [T] are template parameters and
    collaborators that live in other headers: they enter as type classes. *)

From stdpp Require Import gmap gmultiset strings list fin_maps.
From Stdlib Require Import ZArith.

Local Open Scope Z_scope.

(* ================================================================== *)
(** ** JSON documents ([json_t]) *)
(* ================================================================== *)

(** The value kinds of [json_t] that matter to [operator[]]: null, object and
    everything else.  Numbers are kept as integers; floating point and binary
    values behave like the other non-container kinds and are left out. *)
#[warnings="-register-all"] Inductive json_t : Type :=
  | JNull
  | JBoolean (b : bool)
  | JInteger (z : Z)
  | JString (s : string)
  | JArray (l : list json_t)
  | JObject (m : gmap string json_t).

(** How a statement that writes into a document ends: it returns, or
    [operator[]] throws a type error.  Both carry the document as it is at
    that point, since the document is mutated in place. *)
Inductive outcome : Type :=
  | Returned (js : json_t)
  | Threw (js : json_t).

Definition final (o : outcome) : json_t :=
  match o with Returned js => js | Threw js => js end.

(** Sequencing of two statements on the same document: a throw skips the
    rest. *)
Definition and_then (o : outcome) (rest : json_t → outcome) : outcome :=
  match o with
  | Returned js => rest js
  | Threw js => Threw js
  end.

(** The members [operator[](key)] works on: a null value is turned into an
    empty object, an object is used as it is, and any other kind makes
    the operator throw. *)
Definition members (js : json_t) : option (gmap string json_t) :=
  match js with
  | JNull => Some ∅
  | JObject m => Some m
  | _ => None
  end.

(** [js[key] = v]. *)
Definition json_assign (key : string) (v : json_t) (js : json_t) : outcome :=
  match members js with
  | Some m => Returned (JObject (<[key := v]> m))
  | None => Threw js
  end.

(** [js[outer][key] = v]: [js[outer]] yields the member, created as null when
    absent; the second [operator[]] then works on that member.  When the
    member exists and is neither null nor an object the second operator
    throws, and nothing has been written. *)
Definition json_assign2 (outer key : string) (v : json_t) (js : json_t)
  : outcome :=
  match members js with
  | Some m =>
      match members (default JNull (m !! outer)) with
      | Some inner =>
          Returned (JObject (<[outer := JObject (<[key := v]> inner)]> m))
      | None => Threw js
      end
  | None => Threw js
  end.

(** Read access, used to state what a document contains. *)
Definition json_find (js : json_t) (key : string) : option json_t :=
  match js with
  | JObject m => m !! key
  | _ => None
  end.

Definition json_find2 (js : json_t) (outer key : string) : option json_t :=
  json_find js outer ≫= λ sub, json_find sub key.

(** A range-for loop over a string map whose body writes into the
    document. *)
Definition for_each {V : Type} (body : string → V → json_t → outcome)
    (m : gmap string V) (js : json_t) : outcome :=
  map_fold (λ key v acc, and_then acc (body key v)) (Returned js) m.

(* ================================================================== *)
(** ** Collaborators *)
(* ================================================================== *)

(** Conversion of a payload value to JSON ([js[key] = value] builds a
    [json_t] from the value). *)
Class JsonValue (T : Type) := value_to_json : T → json_t.

(** What the container uses of [PershotSnapshot<T>]: default construction
    (through [operator[]] of the map), [add_data(label, datum)],
    [combine(other)] and the conversion to JSON. *)
Class PershotOps (T S : Type) := {
  pershot_new : S;
  pershot_add_data : string → T → S → S;
  pershot_combine : S → S → S;
  pershot_to_json : S → json_t
}.

(** What the container uses of [AverageSnapshot<T>]: default construction,
    [add_data(label, memory, datum, variance)], [combine(other)] and the
    conversion to JSON. *)
Class AverageOps (T S : Type) := {
  average_new : S;
  average_add_data : string → string → T → bool → S → S;
  average_combine : S → S → S;
  average_to_json : S → json_t
}.

(** The three ways a payload is handed to an insertion: [T &&], [const T &]
    and [T &]. *)
Inductive overload : Type := by_move | by_const_ref | by_ref.

(** [m[key]] on a string map: the stored entry, default-constructed when the
    key is absent. *)
Definition entry {V : Type} (dflt : V) (m : gmap string V) (key : string) : V :=
  default dflt (m !! key).

(* ================================================================== *)
(** ** The container *)
(* ================================================================== *)

Section DataContainer.
Context {T PershotSnapshot AverageSnapshot : Type}.
Context `{!JsonValue T, !PershotOps T PershotSnapshot,
          !AverageOps T AverageSnapshot}.

Record DataContainer : Type := {
  additional_data_ : gmap string T;
  pershot_snapshots_ : gmap string PershotSnapshot;
  average_snapshots_ : gmap string AverageSnapshot;
  enabled_ : bool
}.

(** A freshly constructed container: empty maps, [enabled_ = true]. *)
Definition new_container : DataContainer :=
  {| additional_data_ := ∅; pershot_snapshots_ := ∅;
     average_snapshots_ := ∅; enabled_ := true |}.

Definition with_additional (m : gmap string T) (d : DataContainer)
  : DataContainer :=
  {| additional_data_ := m;
     pershot_snapshots_ := pershot_snapshots_ d;
     average_snapshots_ := average_snapshots_ d;
     enabled_ := enabled_ d |}.

Definition with_pershot (m : gmap string PershotSnapshot)
    (d : DataContainer) : DataContainer :=
  {| additional_data_ := additional_data_ d;
     pershot_snapshots_ := m;
     average_snapshots_ := average_snapshots_ d;
     enabled_ := enabled_ d |}.

Definition with_average (m : gmap string AverageSnapshot)
    (d : DataContainer) : DataContainer :=
  {| additional_data_ := additional_data_ d;
     pershot_snapshots_ := pershot_snapshots_ d;
     average_snapshots_ := m;
     enabled_ := enabled_ d |}.

(** [enable(value)]. *)
Definition enable (value : bool) (d : DataContainer) : DataContainer :=
  {| additional_data_ := additional_data_ d;
     pershot_snapshots_ := pershot_snapshots_ d;
     average_snapshots_ := average_snapshots_ d;
     enabled_ := value |}.

(** *** Insertion: one branch per overload of the source *)

Definition add_additional_data (o : overload) (key : string) (data : T)
    (d : DataContainer) : DataContainer :=
  match o with
  | by_move =>
      if enabled_ d
      then with_additional (<[key := data]> (additional_data_ d)) d
      else d
  | by_const_ref =>
      if enabled_ d
      then with_additional (<[key := data]> (additional_data_ d)) d
      else d
  | by_ref =>
      if enabled_ d
      then with_additional (<[key := data]> (additional_data_ d)) d
      else d
  end.

Definition add_pershot_snapshot (o : overload) (type label : string)
    (datum : T) (d : DataContainer) : DataContainer :=
  let m := pershot_snapshots_ d in
  match o with
  | by_move =>
      if enabled_ d
      then with_pershot
             (<[type := pershot_add_data label datum
                          (entry pershot_new m type)]> m) d
      else d
  | by_const_ref =>
      if enabled_ d
      then with_pershot
             (<[type := pershot_add_data label datum
                          (entry pershot_new m type)]> m) d
      else d
  | by_ref =>
      if enabled_ d
      then with_pershot
             (<[type := pershot_add_data label datum
                          (entry pershot_new m type)]> m) d
      else d
  end.

Definition add_average_snapshot (o : overload) (type label memory : string)
    (datum : T) (variance : bool) (d : DataContainer) : DataContainer :=
  let m := average_snapshots_ d in
  match o with
  | by_move =>
      if enabled_ d
      then with_average
             (<[type := average_add_data label memory datum variance
                          (entry average_new m type)]> m) d
      else d
  | by_const_ref =>
      if enabled_ d
      then with_average
             (<[type := average_add_data label memory datum variance
                          (entry average_new m type)]> m) d
      else d
  | by_ref =>
      if enabled_ d
      then with_average
             (<[type := average_add_data label memory datum variance
                          (entry average_new m type)]> m) d
      else d
  end.

(** Any insertion call, with its arguments. *)
Inductive insertion : Type :=
  | AddAdditionalData (o : overload) (key : string) (data : T)
  | AddPershotSnapshot (o : overload) (type label : string) (datum : T)
  | AddAverageSnapshot (o : overload) (type label memory : string)
      (datum : T) (variance : bool).

Definition insert_call (call : insertion) (d : DataContainer)
  : DataContainer :=
  match call with
  | AddAdditionalData o key data => add_additional_data o key data d
  | AddPershotSnapshot o type label datum =>
      add_pershot_snapshot o type label datum d
  | AddAverageSnapshot o type label memory datum variance =>
      add_average_snapshot o type label memory datum variance d
  end.

(** *** [clear()] *)

Definition clear (d : DataContainer) : DataContainer :=
  {| additional_data_ := ∅;
     pershot_snapshots_ := ∅;
     average_snapshots_ := ∅;
     enabled_ := enabled_ d |}.

(** *** [combine] *)

(** The three loops of [combine].  Each visits the entries of [other]'s map
    and writes into the map of [this], which is the accumulator. *)
Definition combine_additional (mine theirs : gmap string T)
  : gmap string T :=
  map_fold (λ key v acc, <[key := v]> acc) mine theirs.

Definition combine_pershot (mine theirs : gmap string PershotSnapshot)
  : gmap string PershotSnapshot :=
  map_fold
    (λ key v acc,
       <[key := pershot_combine (entry pershot_new acc key) v]> acc)
    mine theirs.

Definition combine_average (mine theirs : gmap string AverageSnapshot)
  : gmap string AverageSnapshot :=
  map_fold
    (λ key v acc,
       <[key := average_combine (entry average_new acc key) v]> acc)
    mine theirs.

(** [combine(const DataContainer<T> &other)].  The result is the pair of
    [this] and [other] after the call; [this] and [other] are two distinct
    objects. *)
Definition combine (this other : DataContainer)
  : DataContainer * DataContainer :=
  let this1 :=
    with_additional
      (combine_additional (additional_data_ this) (additional_data_ other))
      this in
  let this2 :=
    with_pershot
      (combine_pershot (pershot_snapshots_ this1)
         (pershot_snapshots_ other))
      this1 in
  let this3 :=
    with_average
      (combine_average (average_snapshots_ this2)
         (average_snapshots_ other))
      this2 in
  (this3, other).

(** [combine(DataContainer<T> &&other)].  The loop variable is a reference
    to a constant pair, so what is handed on is [other]'s entry unchanged;
    the entries of [other] go away in the final [other.clear()]. *)
Definition combine_move (this other : DataContainer)
  : DataContainer * DataContainer :=
  let this1 :=
    with_additional
      (combine_additional (additional_data_ this) (additional_data_ other))
      this in
  let this2 :=
    with_pershot
      (combine_pershot (pershot_snapshots_ this1)
         (pershot_snapshots_ other))
      this1 in
  let this3 :=
    with_average
      (combine_average (average_snapshots_ this2)
         (average_snapshots_ other))
      this2 in
  (this3, clear other).

(** *** [to_json(js, data)] *)

Definition to_json (js : json_t) (data : DataContainer) : outcome :=
  if enabled_ data then
    and_then
      (and_then
         (for_each (λ key v, json_assign key (value_to_json v))
            (additional_data_ data) js)
         (for_each
            (λ key v, json_assign2 "snapshots" key (average_to_json v))
            (average_snapshots_ data)))
      (for_each
         (λ key v, json_assign2 "snapshots" key (pershot_to_json v))
         (pershot_snapshots_ data))
  else Returned js.

(** The three maps of a container, without the flag. *)
Definition same_maps (d1 d2 : DataContainer) : Prop :=
  additional_data_ d1 = additional_data_ d2
  ∧ pershot_snapshots_ d1 = pershot_snapshots_ d2
  ∧ average_snapshots_ d1 = average_snapshots_ d2.

Definition maps_empty (d : DataContainer) : Prop :=
  additional_data_ d = ∅
  ∧ pershot_snapshots_ d = ∅
  ∧ average_snapshots_ d = ∅.

End DataContainer.

Arguments DataContainer : clear implicits.

(* ================================================================== *)
(** ** Derived notions used in the statements *)
(* ================================================================== *)

Section Notions.
Context {T PershotSnapshot AverageSnapshot : Type}.
Context `{!JsonValue T, !PershotOps T PershotSnapshot,
          !AverageOps T AverageSnapshot}.
Implicit Types d : DataContainer T PershotSnapshot AverageSnapshot.

(** The kinds a container holds snapshots for. *)
Definition kinds d : gset string :=
  dom (pershot_snapshots_ d) ∪ dom (average_snapshots_ d).

(** Three containers populated with disjoint-kind data. *)
Definition disjoint_kinds dA dB dC : Prop :=
  kinds dA ## kinds dB ∧ kinds dA ## kinds dC ∧ kinds dB ## kinds dC.

(** [operator[]] accepts the value: it is null or an object. *)
Definition indexable (js : json_t) : bool :=
  match members js with Some _ => true | None => false end.

(** [js[outer][key] = v] can be executed on the document. *)
Definition indexable2 (outer : string) (js : json_t) : bool :=
  match members js with
  | Some mj => indexable (default JNull (mj !! outer))
  | None => false
  end.

(** The documents into which a container with snapshots can be exported
    without a type error: the document is null or an object, and what the
    snapshot loops will find under "snapshots" (the container's own extra
    of that name if it has one, the document's member otherwise) is null,
    absent or an object. *)
Definition export_target_ok (js : json_t) d : bool :=
  indexable js
  && match additional_data_ d !! "snapshots" with
     | Some v => indexable (value_to_json v)
     | None => indexable2 "snapshots" js
     end.

End Notions.

(* ================================================================== *)
(** ** Two instantiations of the collaborators *)
(* ================================================================== *)

(** Integer payloads.  A per-shot snapshot is the bag of the labelled values
    recorded, an average snapshot a pair of a count and a sum.  Both merges
    are associative and commutative, and the default-constructed snapshot is
    neutral. *)
Module Tally.

#[export] Instance tally_value : JsonValue Z := JInteger.

Definition pershot : Type := gmultiset (string * Z).

#[export] Instance tally_pershot : PershotOps Z pershot := {|
  pershot_new := ∅;
  pershot_add_data label datum s := s ⊎ {[+ (label, datum) +]};
  pershot_combine x y := x ⊎ y;
  pershot_to_json s :=
    JArray ((λ p, JObject {[ p.1 := JInteger p.2 ]}) <$> elements s)
|}.

Definition average : Type := Z * Z.

#[export] Instance tally_average : AverageOps Z average := {|
  average_new := (0, 0);
  average_add_data label memory datum variance s := (s.1 + 1, s.2 + datum);
  average_combine x y := (x.1 + y.1, x.2 + y.2);
  average_to_json s :=
    JObject {[ "count" := JInteger s.1; "sum" := JInteger s.2 ]}
|}.

Definition container : Type := DataContainer Z pershot average.

(** Three workers with disjoint kinds; [dA] and [dB] both set the extra
    "shots". *)
Definition dA : container :=
  add_pershot_snapshot by_move "memory" "00" 1
    (add_additional_data by_move "shots" 10 new_container).

Definition dB : container :=
  add_average_snapshot by_const_ref "expval" "z" "0x0" 5 false
    (add_additional_data by_const_ref "shots" 20 new_container).

Definition dC : container :=
  enable false
    (add_average_snapshot by_ref "probs" "p" "0x1" 3 true
       (add_pershot_snapshot by_ref "statevector" "s" 4
          (add_additional_data by_ref "seed" 7 new_container))).

(** One kind, "counts", in both snapshot maps. *)
Definition dBoth : container :=
  add_average_snapshot by_move "counts" "c" "0x0" 9 false
    (add_pershot_snapshot by_move "counts" "c" 2 new_container).

(** A container whose extras use the name of the snapshot section. *)
Definition dClash : container :=
  add_additional_data by_move "snapshots" 5 new_container.

(** A document that already has content. *)
Definition doc : json_t :=
  JObject {[ "header" := JString "h";
             "snapshots" := JObject {[ "old" := JInteger 1 ]} ]}.

End Tally.

(** A merge that is associative and commutative but for which the
    default-constructed snapshot is not neutral: a snapshot is the number of
    operations that went into it, each [add_data] and each [combine]
    counting for one. *)
Module MergeCount.

#[export] Instance count_pershot : PershotOps Z Z := {|
  pershot_new := 0;
  pershot_add_data label datum s := s + 1;
  pershot_combine x y := x + y + 1;
  pershot_to_json s := JInteger s
|}.

#[export] Instance count_average : AverageOps Z Z := {|
  average_new := 0;
  average_add_data label memory datum variance s := s + 1;
  average_combine x y := x + y + 1;
  average_to_json s := JInteger s
|}.

Definition container : Type := DataContainer Z Z Z.

Definition dA : container :=
  add_pershot_snapshot by_move "memory" "00" 1 new_container.

Definition dB : container :=
  add_average_snapshot by_move "expval" "z" "0x0" 5 false new_container.

Definition dC : container :=
  add_pershot_snapshot by_move "counts" "00" 5 new_container.

End MergeCount.

(* ================================================================== *)
(** ** The operators and sequences of calls *)
(* ================================================================== *)

Section Operators.
Context {T PershotSnapshot AverageSnapshot : Type}.
Context `{!PershotOps T PershotSnapshot, !AverageOps T AverageSnapshot}.
Implicit Types this data d : DataContainer T PershotSnapshot AverageSnapshot.

(** [operator+=(const DataContainer<T> &data)]: [return combine(data)]. *)
Definition op_add_assign this data
  : DataContainer T PershotSnapshot AverageSnapshot
    * DataContainer T PershotSnapshot AverageSnapshot :=
  combine this data.

(** [operator+=(DataContainer<T> &&data)]:
    [return combine(std::move(data))]. *)
Definition op_add_assign_move this data
  : DataContainer T PershotSnapshot AverageSnapshot
    * DataContainer T PershotSnapshot AverageSnapshot :=
  combine_move this data.

(** Insertion calls made one after the other on the same container. *)
Definition insert_calls (calls : list (@insertion T)) d
  : DataContainer T PershotSnapshot AverageSnapshot :=
  foldl (λ acc call, insert_call call acc) d calls.

(** [d += x] for every [x] of a list in turn: what [d] holds at the end. *)
Definition accumulate d
    (others : list (DataContainer T PershotSnapshot AverageSnapshot))
  : DataContainer T PershotSnapshot AverageSnapshot :=
  foldl (λ acc x, (op_add_assign acc x).1) d others.

End Operators.

(* ================================================================== *)
(** ** Loops over a string map *)
(* ================================================================== *)

Section Loops.
Context {V : Type}.
Implicit Types (m : gmap string V) (js : json_t).

Lemma final_and_then (o : outcome) (rest : json_t → outcome) :
  final (and_then o rest)
  = match o with Returned js => final (rest js) | Threw js => js end.
Proof. by destruct o. Qed.

Lemma json_find_members js mj key :
  members js = Some mj → json_find js key = mj !! key.
Proof.
  destruct js; intros Hm; simplify_eq/=; by rewrite ?lookup_empty.
Qed.

Lemma for_each_empty (body : string → V → json_t → outcome) js :
  for_each body ∅ js = Returned js.
Proof. unfold for_each. by rewrite map_fold_empty. Qed.

(** The loop [for (pair : m) js[pair.first] = f(pair.second)]: with no
    entry nothing happens; otherwise every entry is written, or the first
    write throws. *)
Lemma for_each_assign (f : V → json_t) m js :
  for_each (λ key v, json_assign key (f v)) m js
  = if decide (m = ∅) then Returned js
    else match members js with
         | Some mj => Returned (JObject ((f <$> m) ∪ mj))
         | None => Threw js
         end.
Proof.
  unfold for_each.
  pose (P := λ (r : outcome) (m0 : gmap string V),
    r = if decide (m0 = ∅) then Returned js
        else match members js with
             | Some mj => Returned (JObject ((f <$> m0) ∪ mj))
             | None => Threw js
             end).
  apply (map_fold_weak_ind P); unfold P; clear P.
  - by rewrite decide_True.
  - intros i x m' r Hi ->.
    rewrite (decide_False (P := <[i:=x]> m' = ∅))
      by apply insert_non_empty.
    destruct (decide (m' = ∅)) as [->|Hne]; simpl.
    + unfold json_assign. destruct (members js) as [mj|]; [|done].
      by rewrite fmap_insert, fmap_empty, <-insert_union_l,
        (left_id_L ∅ (∪)).
    + destruct (members js) as [mj|]; [|done].
      unfold json_assign; simpl.
      by rewrite fmap_insert, insert_union_l.
Qed.

(** The loop [for (pair : m) js[outer][pair.first] = f(pair.second)]. *)
Lemma for_each_assign2 (outer : string) (f : V → json_t) m js :
  for_each (λ key v, json_assign2 outer key (f v)) m js
  = if decide (m = ∅) then Returned js
    else match members js with
         | Some mj =>
             match members (default JNull (mj !! outer)) with
             | Some inner =>
                 Returned
                   (JObject (<[outer := JObject ((f <$> m) ∪ inner)]> mj))
             | None => Threw js
             end
         | None => Threw js
         end.
Proof.
  unfold for_each.
  pose (P := λ (r : outcome) (m0 : gmap string V),
    r = if decide (m0 = ∅) then Returned js
        else match members js with
             | Some mj =>
                 match members (default JNull (mj !! outer)) with
                 | Some inner =>
                     Returned
                       (JObject
                          (<[outer := JObject ((f <$> m0) ∪ inner)]> mj))
                 | None => Threw js
                 end
             | None => Threw js
             end).
  apply (map_fold_weak_ind P); unfold P; clear P.
  - by rewrite decide_True.
  - intros i x m' r Hi ->.
    rewrite (decide_False (P := <[i:=x]> m' = ∅))
      by apply insert_non_empty.
    destruct (decide (m' = ∅)) as [->|Hne]; simpl.
    + unfold json_assign2. destruct (members js) as [mj|]; [|done].
      destruct (members (default JNull (mj !! outer))) as [inner|];
        [|done].
      by rewrite fmap_insert, fmap_empty, <-insert_union_l,
        (left_id_L ∅ (∪)).
    + destruct (members js) as [mj|]; [|done].
      destruct (members (default JNull (mj !! outer))) as [inner|];
        [|done].
      simpl. unfold json_assign2. simpl.
      rewrite lookup_insert_eq. simpl.
      by rewrite insert_insert_eq, fmap_insert, insert_union_l.
Qed.

(** One of the snapshot loops of [combine], for any merge operation [c]
    and default value [e]: entry by entry. *)
Lemma lookup_fold_combine (c : V → V → V) (e : V) (mine theirs : gmap string V)
    (k : string) :
  map_fold (λ key v acc, <[key := c (entry e acc key) v]> acc) mine theirs
    !! k
  = match theirs !! k with
    | Some v => Some (c (entry e mine k) v)
    | None => mine !! k
    end.
Proof.
  revert k.
  apply (map_fold_weak_ind (λ r m, ∀ k,
    r !! k = match m !! k with
             | Some v => Some (c (entry e mine k) v)
             | None => mine !! k
             end)).
  - intros k. by rewrite lookup_empty.
  - intros i x m r Hi IH k.
    destruct (decide (i = k)) as [->|Hne].
    + rewrite !lookup_insert_eq. unfold entry.
      by rewrite IH, Hi.
    + by rewrite !lookup_insert_ne.
Qed.

(** The extras loop of [combine]: a left-biased union. *)
Lemma fold_insert_union (mine theirs : gmap string V) :
  map_fold (λ key v acc, <[key := v]> acc) mine theirs = theirs ∪ mine.
Proof.
  apply (map_fold_weak_ind (λ r m, r = m ∪ mine)).
  - by rewrite (left_id_L ∅ (∪)).
  - intros i x m r _ ->. by rewrite insert_union_l.
Qed.

Lemma entry_lookup (e : V) m k : entry e m k = default e (m !! k).
Proof. done. Qed.

Lemma dom_fold_combine (c : V → V → V) (e : V)
    (mine theirs : gmap string V) :
  dom (map_fold (λ key v acc, <[key := c (entry e acc key) v]> acc)
         mine theirs)
  = dom mine ∪ dom theirs.
Proof.
  apply set_eq. intros k.
  rewrite elem_of_union, !elem_of_dom, lookup_fold_combine.
  destruct (theirs !! k) as [v|]; split.
  - intros _. right. by eexists.
  - intros _. by eexists.
  - intros Hk. by left.
  - intros [Hk|[v Hk]]; [done|discriminate].
Qed.

(** Merging entry by entry is associative as soon as the merge of the
    entries is and the default-constructed entry is neutral on the left. *)
Lemma fold_combine_assoc (c : V → V → V) (e : V)
    (mA mB mC : gmap string V) :
  Assoc (=) c → LeftId (=) e c →
  map_fold (λ key v acc, <[key := c (entry e acc key) v]> acc)
    (map_fold (λ key v acc, <[key := c (entry e acc key) v]> acc) mA mB)
    mC
  = map_fold (λ key v acc, <[key := c (entry e acc key) v]> acc)
      mA
      (map_fold (λ key v acc, <[key := c (entry e acc key) v]> acc) mB mC).
Proof.
  intros Hassoc Hid. apply map_eq. intros k.
  rewrite !lookup_fold_combine, !entry_lookup, !lookup_fold_combine,
    !entry_lookup.
  destruct (mC !! k) as [vc|], (mB !! k) as [vb|]; simpl; try done.
  - by rewrite (assoc c).
  - by rewrite (left_id e c).
Qed.


(** *** What the export loops leave alone, and what they write *)

Lemma indexable_members js : indexable js = true ↔ is_Some (members js).
Proof.
  unfold indexable. destruct (members js); split; try done.
Qed.

Lemma indexable2_find (outer : string) js :
  indexable2 outer js
  = indexable js && indexable (default JNull (json_find js outer)).
Proof.
  unfold indexable2, indexable.
  destruct (members js) as [mj|] eqn:Hm; [|done].
  by rewrite (json_find_members js mj outer Hm).
Qed.

Lemma for_each_assign_frame (f : V → json_t) m js key :
  m !! key = None →
  json_find (final (for_each (λ k v, json_assign k (f v)) m js)) key
  = json_find js key.
Proof.
  intros Hkey. rewrite for_each_assign.
  destruct (decide (m = ∅)); [done|].
  destruct (members js) as [mj|] eqn:Hm; [|done]. simpl.
  rewrite lookup_union_r by (by rewrite lookup_fmap, Hkey).
  symmetry. by apply json_find_members.
Qed.

Lemma for_each_assign_returns (f : V → json_t) m js :
  indexable js = true →
  ∃ js', for_each (λ k v, json_assign k (f v)) m js = Returned js'
         ∧ indexable js' = true
         ∧ ∀ key, json_find js' key
                  = match m !! key with
                    | Some v => Some (f v)
                    | None => json_find js key
                    end.
Proof.
  intros [mj Hm]%indexable_members. rewrite for_each_assign, Hm.
  destruct (decide (m = ∅)) as [->|Hne].
  - exists js. split; [done|split].
    + apply indexable_members. by exists mj.
    + intros key. by rewrite lookup_empty.
  - eexists. split; [done|split; [done|]]. intros key. simpl.
    destruct (m !! key) as [v|] eqn:Hkey.
    + apply lookup_union_Some_l. by rewrite lookup_fmap, Hkey.
    + rewrite lookup_union_r by (by rewrite lookup_fmap, Hkey).
      symmetry. by apply json_find_members.
Qed.

Lemma for_each_assign2_frame_top (outer : string) (f : V → json_t) m js
    key :
  key ≠ outer →
  json_find (final (for_each (λ k v, json_assign2 outer k (f v)) m js)) key
  = json_find js key.
Proof.
  intros Hkey. rewrite for_each_assign2.
  destruct (decide (m = ∅)); [done|].
  destruct (members js) as [mj|] eqn:Hm; [|done].
  destruct (members (default JNull (mj !! outer))); [|done]. simpl.
  rewrite lookup_insert_ne by done.
  symmetry. by apply json_find_members.
Qed.

Lemma for_each_assign2_frame_inner (outer : string) (f : V → json_t) m js
    kind :
  m !! kind = None →
  json_find2 (final (for_each (λ k v, json_assign2 outer k (f v)) m js))
    outer kind
  = json_find2 js outer kind.
Proof.
  intros Hkind. rewrite for_each_assign2.
  destruct (decide (m = ∅)); [done|].
  destruct (members js) as [mj|] eqn:Hm; [|done].
  destruct (members (default JNull (mj !! outer))) as [inner|] eqn:Hin;
    [|done].
  unfold json_find2. simpl. rewrite lookup_insert_eq. simpl.
  rewrite lookup_union_r by (by rewrite lookup_fmap, Hkind).
  rewrite (json_find_members js mj outer Hm).
  destruct (mj !! outer) as [sub|]; simpl in *.
  - symmetry. by apply json_find_members.
  - by simplify_eq.
Qed.

Lemma for_each_assign2_written (outer : string) (f : V → json_t) m js js'
    kind v :
  m !! kind = Some v →
  for_each (λ k v, json_assign2 outer k (f v)) m js = Returned js' →
  json_find2 js' outer kind = Some (f v).
Proof.
  intros Hkind. rewrite for_each_assign2.
  destruct (decide (m = ∅)) as [->|_]; [by rewrite lookup_empty in Hkind|].
  destruct (members js) as [mj|]; [|done].
  destruct (members (default JNull (mj !! outer))) as [inner|]; [|done].
  intros [= <-]. unfold json_find2. simpl. rewrite lookup_insert_eq. simpl.
  apply lookup_union_Some_l. by rewrite lookup_fmap, Hkind.
Qed.

Lemma for_each_assign2_returns (outer : string) (f : V → json_t) m js :
  indexable2 outer js = true →
  ∃ js', for_each (λ k v, json_assign2 outer k (f v)) m js = Returned js'
         ∧ indexable2 outer js' = true.
Proof.
  intros Hok. rewrite for_each_assign2.
  destruct (decide (m = ∅)); [by exists js|].
  unfold indexable2, indexable in Hok.
  destruct (members js) as [mj|]; [|done].
  destruct (members (default JNull (mj !! outer))) as [inner|]; [|done].
  eexists. split; [done|].
  unfold indexable2, indexable. simpl. by rewrite lookup_insert_eq.
Qed.

Lemma and_then_returned (o : outcome) (rest : json_t → outcome) js' :
  and_then o rest = Returned js' →
  ∃ js1, o = Returned js1 ∧ rest js1 = Returned js'.
Proof. destruct o as [js1|js1]; [|done]. intros Hrest. by exists js1. Qed.

End Loops.

(* ================================================================== *)
(** ** Properties of the container *)
(* ================================================================== *)

Section Properties.
Context {T PershotSnapshot AverageSnapshot : Type}.
Context `{!JsonValue T, !PershotOps T PershotSnapshot,
          !AverageOps T AverageSnapshot}.
Implicit Types
  this other d : DataContainer T PershotSnapshot AverageSnapshot.

Lemma container_eq d1 d2 :
  same_maps d1 d2 → enabled_ d1 = enabled_ d2 → d1 = d2.
Proof.
  destruct d1, d2. unfold same_maps; simpl.
  intros (-> & -> & ->) ->. done.
Qed.

(** *** What [combine] leaves in [this], map by map *)

Lemma combine_additional_lookup this other k :
  additional_data_ (combine this other).1 !! k
  = match additional_data_ other !! k with
    | Some v => Some v
    | None => additional_data_ this !! k
    end.
Proof.
  simpl. unfold combine_additional. rewrite fold_insert_union.
  destruct (additional_data_ other !! k) as [v|] eqn:Hk.
  - by apply lookup_union_Some_l.
  - by rewrite lookup_union_r.
Qed.

Lemma combine_pershot_lookup this other k :
  pershot_snapshots_ (combine this other).1 !! k
  = match pershot_snapshots_ other !! k with
    | Some v =>
        Some (pershot_combine
                (entry pershot_new (pershot_snapshots_ this) k) v)
    | None => pershot_snapshots_ this !! k
    end.
Proof. simpl. unfold combine_pershot. apply lookup_fold_combine. Qed.

Lemma combine_average_lookup this other k :
  average_snapshots_ (combine this other).1 !! k
  = match average_snapshots_ other !! k with
    | Some v =>
        Some (average_combine
                (entry average_new (average_snapshots_ this) k) v)
    | None => average_snapshots_ this !! k
    end.
Proof. simpl. unfold combine_average. apply lookup_fold_combine. Qed.

Lemma combine_enabled this other :
  enabled_ (combine this other).1 = enabled_ this.
Proof. done. Qed.

(** Both forms of [combine] leave the same [this]. *)
Lemma combine_move_this this other :
  (combine_move this other).1 = (combine this other).1.
Proof. done. Qed.


(** *** Associativity of [combine] *)

(** The three maps after [combine] are associative in the operands when
    both snapshot merges are associative and the default-constructed
    snapshots are neutral on the left.  Nothing is asked of the kinds. *)
Lemma combine_assoc_maps dA dB dC :
  Assoc (=) (@pershot_combine T PershotSnapshot _) →
  LeftId (=) (@pershot_new T PershotSnapshot _) pershot_combine →
  Assoc (=) (@average_combine T AverageSnapshot _) →
  LeftId (=) (@average_new T AverageSnapshot _) average_combine →
  (combine (combine dA dB).1 dC).1 = (combine dA (combine dB dC).1).1.
Proof.
  intros Hpa Hpi Haa Hai. apply container_eq; [|done].
  repeat split; simpl.
  - unfold combine_additional. rewrite !fold_insert_union.
    by rewrite (assoc_L (∪)).
  - unfold combine_pershot. by apply fold_combine_assoc.
  - unfold combine_average. by apply fold_combine_assoc.
Qed.

(** C1, amended.  For any three containers A, B, C populated with
    disjoint-kind data, and collaborator merges that are associative and
    commutative and for which, in addition, the default-constructed
    snapshot is a left identity, combining (A with B) with C and
    combining A with (B with C) give containers with the same three maps,
    and hence the same export into any document. *)
Theorem combine_assoc dA dB dC :
  Assoc (=) (@pershot_combine T PershotSnapshot _) →
  Comm (=) (@pershot_combine T PershotSnapshot _) →
  LeftId (=) (@pershot_new T PershotSnapshot _) pershot_combine →
  Assoc (=) (@average_combine T AverageSnapshot _) →
  Comm (=) (@average_combine T AverageSnapshot _) →
  LeftId (=) (@average_new T AverageSnapshot _) average_combine →
  disjoint_kinds dA dB dC →
  same_maps (combine (combine dA dB).1 dC).1
            (combine dA (combine dB dC).1).1
  ∧ ∀ js, to_json js (combine (combine dA dB).1 dC).1
          = to_json js (combine dA (combine dB dC).1).1.
Proof.
  intros Hpa _ Hpi Haa _ Hai _.
  rewrite (combine_assoc_maps dA dB dC Hpa Hpi Haa Hai).
  by split.
Qed.

(** *** Source and destination of [combine] *)

(** C2.  After the move form of [combine] the three maps of [other] are
    empty, whatever they held, and [other]'s flag is as it was before. *)
Theorem combine_move_empties_source this other :
  maps_empty (combine_move this other).2
  ∧ enabled_ (combine_move this other).2 = enabled_ other.
Proof. by repeat split. Qed.

(** C8.  After the copy form of [combine], [other] (its three maps and
    its flag) is exactly as before the call. *)
Theorem combine_copy_preserves_source this other :
  (combine this other).2 = other
  ∧ same_maps (combine this other).2 other
  ∧ enabled_ (combine this other).2 = enabled_ other.
Proof. by repeat split. Qed.

(** C4.  A key of [other]'s extras has, after [combine] in either form,
    [other]'s value in [this], whatever [this] held for it; a key that
    [other] does not have keeps in [this] the value it had, if any. *)
Theorem combine_extras_last_writer_wins this other k :
  (∀ v, additional_data_ other !! k = Some v →
        additional_data_ (combine this other).1 !! k = Some v
        ∧ additional_data_ (combine_move this other).1 !! k = Some v)
  ∧ (additional_data_ other !! k = None →
     additional_data_ (combine this other).1 !! k
     = additional_data_ this !! k
     ∧ additional_data_ (combine_move this other).1 !! k
       = additional_data_ this !! k).
Proof.
  rewrite combine_move_this, combine_additional_lookup.
  split; [intros v Hk|intros Hk]; by rewrite Hk.
Qed.

(** C5.  [combine] does not look at the flags: two runs on operands with
    the same maps leave the same maps in the destination, in both forms.
    Whatever the flags, every entry of [other] is merged in and nothing the
    destination held is cleared: an extra of [other] is stored under its
    key and the other extras of [this] stay; a snapshot of [other] is
    merged into [this]'s entry of that kind (default-constructed when
    there is none) and the other snapshots of [this] stay; the move form
    leaves in [this] what the copy form leaves.  So every key of either
    operand is a key of the result, and the destination's flag stays. *)
Theorem combine_ignores_enabled this1 this2 other1 other2 :
  same_maps this1 this2 →
  same_maps other1 other2 →
  same_maps (combine this1 other1).1 (combine this2 other2).1
  ∧ same_maps (combine_move this1 other1).1 (combine_move this2 other2).1
  ∧ (combine_move this1 other1).1 = (combine this1 other1).1
  ∧ (∀ k, additional_data_ (combine this1 other1).1 !! k
          = match additional_data_ other1 !! k with
            | Some v => Some v
            | None => additional_data_ this1 !! k
            end)
  ∧ (∀ k, pershot_snapshots_ (combine this1 other1).1 !! k
          = match pershot_snapshots_ other1 !! k with
            | Some v =>
                Some (pershot_combine
                        (default pershot_new (pershot_snapshots_ this1 !! k))
                        v)
            | None => pershot_snapshots_ this1 !! k
            end)
  ∧ (∀ k, average_snapshots_ (combine this1 other1).1 !! k
          = match average_snapshots_ other1 !! k with
            | Some v =>
                Some (average_combine
                        (default average_new (average_snapshots_ this1 !! k))
                        v)
            | None => average_snapshots_ this1 !! k
            end)
  ∧ dom (additional_data_ (combine this1 other1).1)
    = dom (additional_data_ this1) ∪ dom (additional_data_ other1)
  ∧ dom (pershot_snapshots_ (combine this1 other1).1)
    = dom (pershot_snapshots_ this1) ∪ dom (pershot_snapshots_ other1)
  ∧ dom (average_snapshots_ (combine this1 other1).1)
    = dom (average_snapshots_ this1) ∪ dom (average_snapshots_ other1)
  ∧ enabled_ (combine this1 other1).1 = enabled_ this1
  ∧ enabled_ (combine_move this1 other1).1 = enabled_ this1.
Proof.
  intros (Ha & Hp & Hv) (Ha' & Hp' & Hv').
  assert (same_maps (combine this1 other1).1 (combine this2 other2).1)
    as Hsame.
  { unfold same_maps. simpl. by rewrite Ha, Hp, Hv, Ha', Hp', Hv'. }
  split; [exact Hsame|]. split; [by rewrite !combine_move_this|].
  split; [apply combine_move_this|].
  split; [intros k; apply combine_additional_lookup|].
  split; [intros k; apply combine_pershot_lookup|].
  split; [intros k; apply combine_average_lookup|].
  split.
  { simpl. unfold combine_additional. rewrite fold_insert_union.
    rewrite dom_union_L. apply (comm_L (∪)). }
  split; [apply dom_fold_combine|].
  split; [apply dom_fold_combine|].
  split; done.
Qed.

(** *** Gating of the insertions *)

(** C3.  On a disabled container every insertion, in every overload and
    with any arguments, leaves the three maps (and the flag) as they
    are. *)
Theorem insertion_gated (call : insertion) d :
  enabled_ d = false →
  insert_call call d = d ∧ same_maps (insert_call call d) d.
Proof.
  intros Hd.
  assert (insert_call call d = d) as ->; [|done].
  destruct call as [o ? ?|o ? ? ?|o ? ? ? ? ?]; destruct o; simpl;
    unfold add_additional_data, add_pershot_snapshot,
      add_average_snapshot; by rewrite Hd.
Qed.

(** An enabled insertion does write: the extra is stored under its key. *)
Lemma add_additional_data_enabled o key data d :
  enabled_ d = true →
  additional_data_ (add_additional_data o key data d) !! key = Some data.
Proof.
  intros Hd. destruct o; unfold add_additional_data; rewrite Hd; simpl;
    apply lookup_insert_eq.
Qed.

(** An enabled snapshot insertion reaches the kind through [operator[]] and
    records into the entry found or default-constructed there. *)
Lemma add_pershot_snapshot_enabled o type label datum d :
  enabled_ d = true →
  pershot_snapshots_ (add_pershot_snapshot o type label datum d) !! type
  = Some (pershot_add_data label datum
            (entry pershot_new (pershot_snapshots_ d) type)).
Proof.
  intros Hd. destruct o; unfold add_pershot_snapshot; rewrite Hd; simpl;
    apply lookup_insert_eq.
Qed.

Lemma add_average_snapshot_enabled o type label memory datum variance d :
  enabled_ d = true →
  average_snapshots_
    (add_average_snapshot o type label memory datum variance d) !! type
  = Some (average_add_data label memory datum variance
            (entry average_new (average_snapshots_ d) type)).
Proof.
  intros Hd. destruct o; unfold add_average_snapshot; rewrite Hd; simpl;
    apply lookup_insert_eq.
Qed.

(** *** [clear] *)

Lemma to_json_no_data js d :
  maps_empty d → to_json js d = Returned js.
Proof.
  intros (Ha & Hp & Hv). unfold to_json.
  destruct (enabled_ d); [|done].
  by rewrite Ha, Hp, Hv, !for_each_empty.
Qed.

(** C7.  After [clear()] the three maps are empty and the flag is as
    before; exporting the cleared container, enabled, into an empty
    document leaves the document empty, and exporting it into any
    document changes nothing. *)
Theorem clear_total d :
  maps_empty (clear d)
  ∧ enabled_ (clear d) = enabled_ d
  ∧ (∀ js, to_json js (clear d) = Returned js)
  ∧ to_json JNull (enable true (clear d)) = Returned JNull
  ∧ ∀ key,
      json_find (final (to_json JNull (enable true (clear d)))) key = None
      ∧ json_find2 (final (to_json JNull (enable true (clear d))))
          "snapshots" key = None.
Proof.
  assert (∀ js, to_json js (enable true (clear d)) = Returned js) as Hen
    by (intros js; by apply to_json_no_data).
  split; [done|]. split; [done|].
  split; [intros js; by apply to_json_no_data|].
  split; [apply Hen|].
  intros key. by rewrite Hen.
Qed.

(** *** Export *)

(** C6.  Exporting a disabled container writes nothing: the document is
    left as it is. *)
Theorem to_json_disabled js d :
  enabled_ d = false → to_json js d = Returned js.
Proof. intros Hd. unfold to_json. by rewrite Hd. Qed.


(** On a target that is fit for it the export returns. *)
Lemma to_json_returns js d :
  export_target_ok js d = true → ∃ js', to_json js d = Returned js'.
Proof.
  unfold export_target_ok, to_json. intros [Hjs Hslot]%andb_true_iff.
  destruct (enabled_ d); [|by exists js].
  destruct (for_each_assign_returns value_to_json (additional_data_ d)
              js Hjs) as (js1 & -> & Hjs1 & Hfind1).
  assert (indexable2 "snapshots" js1 = true) as Hok1.
  { rewrite indexable2_find, Hjs1, Hfind1. simpl.
    destruct (additional_data_ d !! "snapshots") as [v|]; [done|].
    rewrite indexable2_find in Hslot.
    by apply andb_true_iff in Hslot as [_ ?]. }
  destruct (for_each_assign2_returns "snapshots" average_to_json
              (average_snapshots_ d) js1 Hok1) as (js2 & Hret2 & Hok2).
  destruct (for_each_assign2_returns "snapshots" pershot_to_json
              (pershot_snapshots_ d) js2 Hok2) as (js3 & Hret3 & _).
  exists js3. simpl. rewrite Hret2. simpl. by rewrite Hret3.
Qed.

(** C9.  When a kind is a key of both snapshot maps of an enabled
    container, the document the export returns has the per-shot fragment
    under "snapshots" for that kind: the per-shot loop runs after the
    average loop and overwrites its entry.  On a target fit for the
    export there is such a document. *)
Theorem to_json_pershot_overwrites_average js d kind a p :
  enabled_ d = true →
  average_snapshots_ d !! kind = Some a →
  pershot_snapshots_ d !! kind = Some p →
  (∀ js', to_json js d = Returned js' →
          json_find2 js' "snapshots" kind = Some (pershot_to_json p))
  ∧ (export_target_ok js d = true → ∃ js', to_json js d = Returned js').
Proof.
  intros Hen _ Hp. split; [|apply to_json_returns].
  intros js'. unfold to_json. rewrite Hen.
  intros (js2 & _ & Hret)%and_then_returned.
  by eapply for_each_assign2_written.
Qed.

(** C10, amended.  The export does not re-initialise the document.  In
    the document as the export leaves it (on return or on a throw), every
    top-level key that is neither an extras key of the container nor
    "snapshots" has its prior value; and, when "snapshots" is not itself
    an extras key of the container, every entry under "snapshots" whose
    kind is in neither snapshot map has its prior value. *)
Theorem to_json_preserves_unrelated js d :
  (∀ key,
     additional_data_ d !! key = None → key ≠ "snapshots" →
     json_find (final (to_json js d)) key = json_find js key)
  ∧ (additional_data_ d !! "snapshots" = None →
     ∀ kind,
       pershot_snapshots_ d !! kind = None →
       average_snapshots_ d !! kind = None →
       json_find2 (final (to_json js d)) "snapshots" kind
       = json_find2 js "snapshots" kind).
Proof.
  unfold to_json. destruct (enabled_ d); [|done]. split.
  - intros key Hkey Hne.
    pose proof (for_each_assign_frame value_to_json (additional_data_ d)
                  js key Hkey) as H1.
    destruct (for_each _ (additional_data_ d) js) as [js1|js1];
      simpl in *; [|done].
    pose proof (for_each_assign2_frame_top "snapshots" average_to_json
                  (average_snapshots_ d) js1 key Hne) as H2.
    destruct (for_each _ (average_snapshots_ d) js1) as [js2|js2];
      simpl in *; [|congruence].
    rewrite (for_each_assign2_frame_top "snapshots" pershot_to_json
               (pershot_snapshots_ d) js2 key Hne).
    congruence.
  - intros Hs kind Hp Ha.
    pose proof (for_each_assign_frame value_to_json (additional_data_ d)
                  js "snapshots" Hs) as H1.
    destruct (for_each _ (additional_data_ d) js) as [js1|js1];
      simpl in *; [|unfold json_find2; by rewrite H1].
    pose proof (for_each_assign2_frame_inner "snapshots" average_to_json
                  (average_snapshots_ d) js1 kind Ha) as H2.
    destruct (for_each _ (average_snapshots_ d) js1) as [js2|js2];
      simpl in *; [|rewrite H2; unfold json_find2; by rewrite H1].
    rewrite (for_each_assign2_frame_inner "snapshots" pershot_to_json
               (pershot_snapshots_ d) js2 kind Hp).
    rewrite H2. unfold json_find2. by rewrite H1.
Qed.

End Properties.

(* ================================================================== *)
(** ** The properties on concrete containers *)
(* ================================================================== *)

Section Instances.
Import Tally.

Lemma tally_pershot_assoc :
  Assoc (=) (@pershot_combine Z Tally.pershot _).
Proof. intros x y z. simpl. apply (assoc_L (⊎)). Qed.

Lemma tally_pershot_comm :
  Comm (=) (@pershot_combine Z Tally.pershot _).
Proof. intros x y. simpl. apply (comm_L (⊎)). Qed.

Lemma tally_pershot_left_id :
  LeftId (=) (@pershot_new Z Tally.pershot _) pershot_combine.
Proof. intros x. simpl. apply (left_id_L ∅ (⊎)). Qed.

Lemma tally_average_assoc :
  Assoc (=) (@average_combine Z Tally.average _).
Proof. intros [a b] [c d] [e f]. simpl. f_equal; lia. Qed.

Lemma tally_average_comm :
  Comm (=) (@average_combine Z Tally.average _).
Proof. intros [a b] [c d]. simpl. f_equal; lia. Qed.

Lemma tally_average_left_id :
  LeftId (=) (@average_new Z Tally.average _) average_combine.
Proof. intros [a b]. simpl. f_equal; lia. Qed.

Lemma tally_disjoint_kinds : disjoint_kinds dA dB dC.
Proof. repeat split; apply (bool_decide_unpack _); by vm_compute. Qed.

(** The scenario of the extras: A has shots = 10, B has shots = 20; after
    [A.combine(move(B))] A has shots = 20 and B has no extras. *)
Example scenario_shots :
  additional_data_ (combine_move dA dB).1 !! "shots" = Some 20
  ∧ additional_data_ (combine_move dA dB).2 = ∅.
Proof. split; reflexivity. Qed.

(** A disabled container keeps what it holds, and [combine] still merges
    it. *)
Example disabled_still_combines :
  additional_data_ (combine dA dC).1 !! "seed" = Some 7
  ∧ average_snapshots_ (combine dA dC).1 !! "probs" = Some (1, 3).
Proof. split; reflexivity. Qed.

Lemma combine_assoc_witness :
  disjoint_kinds dA dB dC
  ∧ same_maps (combine (combine dA dB).1 dC).1
              (combine dA (combine dB dC).1).1
  ∧ ∀ js, to_json js (combine (combine dA dB).1 dC).1
          = to_json js (combine dA (combine dB dC).1).1.
Proof.
  split; [exact tally_disjoint_kinds|].
  exact (combine_assoc dA dB dC
           tally_pershot_assoc tally_pershot_comm tally_pershot_left_id
           tally_average_assoc tally_average_comm tally_average_left_id
           tally_disjoint_kinds).
Defined.

Lemma insertion_gated_witness :
  enabled_ dC = false
  ∧ insert_call (AddPershotSnapshot by_move "counts" "00" 3) dC = dC
  ∧ same_maps (insert_call (AddPershotSnapshot by_move "counts" "00" 3) dC)
      dC.
Proof.
  split; [reflexivity|].
  apply (insertion_gated (AddPershotSnapshot by_move "counts" "00" 3) dC).
  reflexivity.
Defined.

Lemma combine_extras_last_writer_wins_witness :
  additional_data_ dB !! "shots" = Some 20
  ∧ additional_data_ dA !! "shots" = Some 10
  ∧ additional_data_ (combine dA dB).1 !! "shots" = Some 20
  ∧ additional_data_ (combine_move dA dB).1 !! "shots" = Some 20.
Proof.
  split; [reflexivity|]. split; [reflexivity|].
  destruct (combine_extras_last_writer_wins dA dB "shots") as [Hin _].
  exact (Hin 20 eq_refl).
Defined.

Lemma combine_ignores_enabled_witness :
  same_maps dA (enable false dA)
  ∧ same_maps dC (enable true dC)
  ∧ same_maps (combine dA dC).1 (combine (enable false dA) (enable true dC)).1
  ∧ same_maps (combine_move dA dC).1
      (combine_move (enable false dA) (enable true dC)).1
  ∧ additional_data_ (combine dA dC).1 !! "seed" = Some 7
  ∧ additional_data_ (combine dA dC).1 !! "shots" = Some 10
  ∧ pershot_snapshots_ (combine dA dC).1 !! "memory"
    = pershot_snapshots_ dA !! "memory"
  ∧ pershot_snapshots_ (combine_move dA dC).1 !! "statevector"
    = Some (pershot_combine pershot_new (pershot_add_data "s" 4 pershot_new))
  ∧ average_snapshots_ (combine dA dC).1 !! "probs"
    = Some (average_combine average_new
              (average_add_data "p" "0x1" 3 true average_new)).
Proof.
  split; [by repeat split|]. split; [by repeat split|].
  destruct (combine_ignores_enabled dA (enable false dA) dC (enable true dC))
    as (Hcopy & Hmove & _ & Hadd & Hper & Havg & _);
    [by repeat split|by repeat split|].
  split; [exact Hcopy|]. split; [exact Hmove|].
  split; [exact (Hadd "seed")|]. split; [exact (Hadd "shots")|].
  split; [exact (Hper "memory")|]. split; [exact (Hper "statevector")|].
  exact (Havg "probs").
Defined.

Lemma to_json_disabled_witness :
  enabled_ dC = false ∧ to_json doc dC = Returned doc.
Proof.
  split; [reflexivity|]. apply (to_json_disabled doc dC). reflexivity.
Defined.

Lemma to_json_pershot_overwrites_average_witness :
  enabled_ dBoth = true
  ∧ average_snapshots_ dBoth !! "counts"
    = Some (average_add_data "c" "0x0" 9 false average_new)
  ∧ pershot_snapshots_ dBoth !! "counts"
    = Some (pershot_add_data "c" 2 pershot_new)
  ∧ export_target_ok doc dBoth = true
  ∧ ∃ js', to_json doc dBoth = Returned js'
           ∧ json_find2 js' "snapshots" "counts"
             = Some (pershot_to_json (pershot_add_data "c" 2 pershot_new)).
Proof.
  split; [reflexivity|]. split; [reflexivity|]. split; [reflexivity|].
  split; [reflexivity|].
  destruct (to_json_pershot_overwrites_average doc dBoth "counts"
              (average_add_data "c" "0x0" 9 false average_new)
              (pershot_add_data "c" 2 pershot_new)
              eq_refl eq_refl eq_refl) as [Hfrag Hret].
  destruct (Hret eq_refl) as [js' Hjs'].
  exists js'. split; [exact Hjs' | exact (Hfrag js' Hjs')].
Defined.

Lemma to_json_preserves_unrelated_witness :
  additional_data_ dA !! "header" = None
  ∧ json_find (final (to_json doc dA)) "header" = json_find doc "header"
  ∧ additional_data_ dA !! "snapshots" = None
  ∧ pershot_snapshots_ dA !! "old" = None
  ∧ average_snapshots_ dA !! "old" = None
  ∧ json_find2 (final (to_json doc dA)) "snapshots" "old"
    = json_find2 doc "snapshots" "old".
Proof.
  destruct (to_json_preserves_unrelated doc dA) as [Htop Hinner].
  split; [reflexivity|].
  split; [apply Htop; [reflexivity|discriminate]|].
  split; [reflexivity|]. split; [reflexivity|]. split; [reflexivity|].
  apply Hinner; reflexivity.
Defined.

(** C10 as stated fails when the container has an extra named
    "snapshots": the extras loop replaces the whole "snapshots" member of
    the document, and the entry "old", whose kind is in neither snapshot
    map, is gone. *)
Lemma to_json_extra_named_snapshots :
  enabled_ dClash = true
  ∧ pershot_snapshots_ dClash !! "old" = None
  ∧ average_snapshots_ dClash !! "old" = None
  ∧ json_find2 doc "snapshots" "old" = Some (JInteger 1)
  ∧ json_find (final (to_json doc dClash)) "snapshots" = Some (JInteger 5)
  ∧ json_find2 (final (to_json doc dClash)) "snapshots" "old"
    ≠ json_find2 doc "snapshots" "old".
Proof. repeat split; try reflexivity. by vm_compute. Qed.

End Instances.

Section MergeCountInstance.
Import MergeCount.

(** C1 as stated fails for a merge that is associative and commutative
    but for which the default-constructed snapshot is not neutral: the
    kind "counts", held by C alone, is merged into one default-constructed
    entry on one side and into two on the other. *)
Lemma combine_assoc_needs_neutral_default :
  Assoc (=) (@pershot_combine Z Z _)
  ∧ Comm (=) (@pershot_combine Z Z _)
  ∧ Assoc (=) (@average_combine Z Z _)
  ∧ Comm (=) (@average_combine Z Z _)
  ∧ disjoint_kinds dA dB dC
  ∧ pershot_snapshots_ (combine (combine dA dB).1 dC).1 !! "counts" = Some 2
  ∧ pershot_snapshots_ (combine dA (combine dB dC).1).1 !! "counts" = Some 3
  ∧ ¬ same_maps (combine (combine dA dB).1 dC).1
                (combine dA (combine dB dC).1).1.
Proof.
  split; [intros x y z; simpl; lia|].
  split; [intros x y; simpl; lia|].
  split; [intros x y z; simpl; lia|].
  split; [intros x y; simpl; lia|].
  split; [repeat split; apply (bool_decide_unpack _); by vm_compute|].
  split; [reflexivity|]. split; [reflexivity|].
  intros (_ & Hp & _).
  apply (f_equal (λ m, m !! "counts")) in Hp.
  vm_compute in Hp. discriminate.
Qed.

End MergeCountInstance.

(* ================================================================== *)
(** ** The export in closed form *)
(* ================================================================== *)

Section ExportClosedForm.
Context {T PershotSnapshot AverageSnapshot : Type}.
Context `{!JsonValue T, !PershotOps T PershotSnapshot,
          !AverageOps T AverageSnapshot}.
Implicit Types d : DataContainer T PershotSnapshot AverageSnapshot.

(** The two snapshot loops of [to_json], run on a document whose members
    are [base]. *)
Lemma snapshot_loops_closed d js1 base :
  members js1 = Some base →
  and_then
    (for_each (λ key v, json_assign2 "snapshots" key (average_to_json v))
       (average_snapshots_ d) js1)
    (for_each (λ key v, json_assign2 "snapshots" key (pershot_to_json v))
       (pershot_snapshots_ d))
  = if decide (average_snapshots_ d = ∅ ∧ pershot_snapshots_ d = ∅)
    then Returned js1
    else match members (default JNull (base !! "snapshots")) with
         | Some inner =>
             Returned
               (JObject
                  (<["snapshots" :=
                       JObject
                         ((pershot_to_json <$> pershot_snapshots_ d)
                          ∪ ((average_to_json <$> average_snapshots_ d)
                             ∪ inner))]> base))
         | None => Threw js1
         end.
Proof.
  intros Hm. rewrite for_each_assign2, Hm.
  destruct (decide (average_snapshots_ d = ∅)) as [Ha|Ha].
  - simpl. rewrite for_each_assign2, Hm, Ha.
    destruct (decide (pershot_snapshots_ d = ∅)) as [Hp|Hp].
    + by rewrite decide_True.
    + rewrite decide_False by (by intros [_ ?]).
      destruct (members (default JNull (base !! "snapshots"))); [|done].
      by rewrite fmap_empty, (left_id_L ∅ (∪)).
  - rewrite decide_False by (by intros [? _]).
    destruct (members (default JNull (base !! "snapshots"))) as [inner|];
      [|done].
    simpl. rewrite for_each_assign2. simpl.
    destruct (decide (pershot_snapshots_ d = ∅)) as [Hp|Hp].
    + by rewrite Hp, fmap_empty, (left_id_L ∅ (∪)).
    + rewrite lookup_insert_eq. simpl. by rewrite insert_insert_eq.
Qed.

(** [to_json] on a document that [operator[]] accepts. *)
Lemma to_json_closed js d mj :
  enabled_ d = true →
  members js = Some mj →
  to_json js d
  = let base := (value_to_json <$> additional_data_ d) ∪ mj in
    let js1 := if decide (additional_data_ d = ∅) then js
               else JObject base in
    if decide (average_snapshots_ d = ∅ ∧ pershot_snapshots_ d = ∅)
    then Returned js1
    else match members (default JNull (base !! "snapshots")) with
         | Some inner =>
             Returned
               (JObject
                  (<["snapshots" :=
                       JObject
                         ((pershot_to_json <$> pershot_snapshots_ d)
                          ∪ ((average_to_json <$> average_snapshots_ d)
                             ∪ inner))]> base))
         | None => Threw js1
         end.
Proof.
  intros Hen Hm. unfold to_json. rewrite Hen, for_each_assign, Hm.
  destruct (decide (additional_data_ d = ∅)) as [He|He].
  - rewrite He, fmap_empty, (left_id_L ∅ (∪)).
    cbv zeta. cbn [and_then]. by apply snapshot_loops_closed.
  - cbv zeta. cbn [and_then]. by apply snapshot_loops_closed.
Qed.

(** [to_json] on a document that [operator[]] rejects: the first write
    throws. *)
Lemma to_json_rejected js d :
  enabled_ d = true →
  members js = None →
  to_json js d
  = if decide (additional_data_ d = ∅
               ∧ average_snapshots_ d = ∅ ∧ pershot_snapshots_ d = ∅)
    then Returned js else Threw js.
Proof.
  intros Hen Hm. unfold to_json. rewrite Hen, for_each_assign, Hm.
  destruct (decide (additional_data_ d = ∅)) as [He|He].
  - cbn [and_then]. rewrite for_each_assign2, Hm.
    destruct (decide (average_snapshots_ d = ∅)) as [Ha|Ha].
    + cbn [and_then]. rewrite for_each_assign2, Hm.
      destruct (decide (pershot_snapshots_ d = ∅)) as [Hp|Hp].
      * by rewrite decide_True.
      * rewrite decide_False; [done|]. by intros (_ & _ & ?).
    + rewrite decide_False; [done|]. by intros (_ & ? & _).
  - rewrite decide_False; [done|]. by intros (? & _ & _).
Qed.

(** The slot the snapshot loops find under "snapshots" once the extras are
    written is fit exactly when [export_target_ok] says so. *)
Lemma export_target_ok_slot js d mj :
  members js = Some mj →
  export_target_ok js d
  = indexable
      (default JNull
         (((value_to_json <$> additional_data_ d) ∪ mj) !! "snapshots")).
Proof.
  intros Hm. unfold export_target_ok, indexable2, indexable at 1.
  rewrite Hm. simpl.
  destruct (additional_data_ d !! "snapshots") as [v|] eqn:Hs.
  - by rewrite (lookup_union_Some_l _ _ _ (value_to_json v))
      by (by rewrite lookup_fmap, Hs).
  - by rewrite lookup_union_r by (by rewrite lookup_fmap, Hs).
Qed.

End ExportClosedForm.

(* ================================================================== *)
(** ** Further properties: insertion, merging, export *)
(* ================================================================== *)

Section MergeLaws.
Context {V : Type}.

(** Merging entry by entry commutes when the merge of the entries does and
    the default-constructed entry is neutral on the left. *)
Lemma fold_combine_comm (c : V → V → V) (e : V) (mA mB : gmap string V) :
  Comm (=) c → LeftId (=) e c →
  map_fold (λ key v acc, <[key := c (entry e acc key) v]> acc) mA mB
  = map_fold (λ key v acc, <[key := c (entry e acc key) v]> acc) mB mA.
Proof.
  intros Hcomm Hid. apply map_eq. intros k.
  rewrite !lookup_fold_combine, !entry_lookup.
  destruct (mA !! k) as [a|], (mB !! k) as [b|]; simpl; try done.
  - by rewrite (comm c).
  - by rewrite (left_id e c).
  - by rewrite (left_id e c).
Qed.

(** Merging nothing changes nothing. *)
Lemma fold_combine_empty (c : V → V → V) (e : V) (mine : gmap string V) :
  map_fold (λ key v acc, <[key := c (entry e acc key) v]> acc) mine ∅
  = mine.
Proof. by rewrite map_fold_empty. Qed.

(** Merging into an empty map reproduces the other map when the
    default-constructed entry is neutral on the left. *)
Lemma fold_combine_into_empty (c : V → V → V) (e : V)
    (theirs : gmap string V) :
  LeftId (=) e c →
  map_fold (λ key v acc, <[key := c (entry e acc key) v]> acc) ∅ theirs
  = theirs.
Proof.
  intros Hid. apply map_eq. intros k.
  rewrite lookup_fold_combine, entry_lookup, lookup_empty. simpl.
  destruct (theirs !! k); [|done]. by rewrite (left_id e c).
Qed.

End MergeLaws.

Section FurtherProperties.
Context {T PershotSnapshot AverageSnapshot : Type}.
Context `{!JsonValue T, !PershotOps T PershotSnapshot,
          !AverageOps T AverageSnapshot}.
Implicit Types
  this other d : DataContainer T PershotSnapshot AverageSnapshot.

(** *** Insertion *)

(** X1.  On an enabled container [add_additional_data], in any overload,
    stores the value under its key, replacing what was there; the other
    extras, both snapshot maps and the flag are as before. *)
Theorem add_additional_data_stores o key data d :
  enabled_ d = true →
  additional_data_ (add_additional_data o key data d) !! key = Some data
  ∧ (∀ k, k ≠ key →
       additional_data_ (add_additional_data o key data d) !! k
       = additional_data_ d !! k)
  ∧ pershot_snapshots_ (add_additional_data o key data d)
    = pershot_snapshots_ d
  ∧ average_snapshots_ (add_additional_data o key data d)
    = average_snapshots_ d
  ∧ enabled_ (add_additional_data o key data d) = true.
Proof.
  intros Hd. destruct o; unfold add_additional_data; rewrite Hd; simpl.
  all: split; [apply lookup_insert_eq|].
  all: split; [intros k Hk; by apply lookup_insert_ne|done].
Qed.

(** X2.  On an enabled container [add_pershot_snapshot], in any overload,
    records into the entry of its kind, default-constructed when the kind
    is new; the other kinds, the extras, the average snapshots and the flag
    are as before. *)
Theorem add_pershot_snapshot_records o type label datum d :
  enabled_ d = true →
  pershot_snapshots_ (add_pershot_snapshot o type label datum d) !! type
  = Some (pershot_add_data label datum
            (default pershot_new (pershot_snapshots_ d !! type)))
  ∧ (∀ k, k ≠ type →
       pershot_snapshots_ (add_pershot_snapshot o type label datum d) !! k
       = pershot_snapshots_ d !! k)
  ∧ additional_data_ (add_pershot_snapshot o type label datum d)
    = additional_data_ d
  ∧ average_snapshots_ (add_pershot_snapshot o type label datum d)
    = average_snapshots_ d
  ∧ enabled_ (add_pershot_snapshot o type label datum d) = true.
Proof.
  intros Hd. destruct o; unfold add_pershot_snapshot; rewrite Hd; simpl.
  all: split; [apply lookup_insert_eq|].
  all: split; [intros k Hk; by apply lookup_insert_ne|done].
Qed.

(** X3.  On an enabled container [add_average_snapshot], in any overload,
    records into the entry of its kind, default-constructed when the kind
    is new; the other kinds, the extras, the per-shot snapshots and the
    flag are as before. *)
Theorem add_average_snapshot_records o type label memory datum variance d :
  enabled_ d = true →
  average_snapshots_
    (add_average_snapshot o type label memory datum variance d) !! type
  = Some (average_add_data label memory datum variance
            (default average_new (average_snapshots_ d !! type)))
  ∧ (∀ k, k ≠ type →
       average_snapshots_
         (add_average_snapshot o type label memory datum variance d) !! k
       = average_snapshots_ d !! k)
  ∧ additional_data_
      (add_average_snapshot o type label memory datum variance d)
    = additional_data_ d
  ∧ pershot_snapshots_
      (add_average_snapshot o type label memory datum variance d)
    = pershot_snapshots_ d
  ∧ enabled_ (add_average_snapshot o type label memory datum variance d)
    = true.
Proof.
  intros Hd. destruct o; unfold add_average_snapshot; rewrite Hd; simpl.
  all: split; [apply lookup_insert_eq|].
  all: split; [intros k Hk; by apply lookup_insert_ne|done].
Qed.

Lemma insert_call_disabled (call : insertion) d :
  enabled_ d = false → insert_call call d = d.
Proof.
  intros Hd.
  destruct call as [o ? ?|o ? ? ?|o ? ? ? ? ?]; destruct o; simpl;
    unfold add_additional_data, add_pershot_snapshot,
      add_average_snapshot; by rewrite Hd.
Qed.

Lemma insert_calls_disabled (calls : list insertion) d :
  enabled_ d = false → insert_calls calls d = d.
Proof.
  intros Hd. unfold insert_calls.
  induction calls as [|call calls IH]; [done|].
  simpl. by rewrite insert_call_disabled.
Qed.

Lemma enable_enable b1 b2 d : enable b1 (enable b2 d) = enable b1 d.
Proof. done. Qed.

Lemma enable_same d : enable (enabled_ d) d = d.
Proof. by destruct d. Qed.

(** X4.  Between [enable(false)] and the [enable] that restores the flag,
    any sequence of insertions, of any kind and with any arguments, is
    lost: the container ends exactly as it started. *)
Theorem insert_calls_while_disabled (calls : list insertion) d :
  insert_calls calls (enable false d) = enable false d
  ∧ enable (enabled_ d) (insert_calls calls (enable false d)) = d.
Proof.
  assert (insert_calls calls (enable false d) = enable false d) as ->
    by by apply insert_calls_disabled.
  split; [done|]. by rewrite enable_enable, enable_same.
Qed.

(** X5.  Two extras written one after the other: under the same key the
    second alone remains, under different keys the order does not
    matter. *)
Theorem add_additional_data_twice o1 o2 k1 k2 v1 v2 d :
  (k1 = k2 →
   add_additional_data o2 k2 v2 (add_additional_data o1 k1 v1 d)
   = add_additional_data o2 k2 v2 d)
  ∧ (k1 ≠ k2 →
     add_additional_data o2 k2 v2 (add_additional_data o1 k1 v1 d)
     = add_additional_data o1 k1 v1 (add_additional_data o2 k2 v2 d)).
Proof.
  split.
  - intros <-. destruct o1, o2; unfold add_additional_data;
      destruct (enabled_ d) eqn:Hd; simpl; rewrite ?Hd; try done;
      unfold with_additional; simpl; by rewrite insert_insert_eq.
  - intros Hne. destruct o1, o2; unfold add_additional_data;
      destruct (enabled_ d) eqn:Hd; simpl; rewrite ?Hd; try done;
      unfold with_additional; simpl; by rewrite insert_insert_ne.
Qed.

(** *** Merging *)

(** X6.  What [combine], in either form, leaves in [this] for a kind: when
    [other] holds the kind, the merge of [this]'s entry (default-constructed
    when [this] has none) with [other]'s; otherwise what [this] held, if
    anything.  The same for per-shot and for average snapshots. *)
Theorem combine_snapshots_merge this other kind :
  pershot_snapshots_ (combine this other).1 !! kind
  = match pershot_snapshots_ other !! kind with
    | Some v =>
        Some (pershot_combine
                (default pershot_new (pershot_snapshots_ this !! kind)) v)
    | None => pershot_snapshots_ this !! kind
    end
  ∧ average_snapshots_ (combine this other).1 !! kind
    = match average_snapshots_ other !! kind with
      | Some v =>
          Some (average_combine
                  (default average_new (average_snapshots_ this !! kind)) v)
      | None => average_snapshots_ this !! kind
      end
  ∧ pershot_snapshots_ (combine_move this other).1
    = pershot_snapshots_ (combine this other).1
  ∧ average_snapshots_ (combine_move this other).1
    = average_snapshots_ (combine this other).1.
Proof.
  split; [apply combine_pershot_lookup|].
  split; [apply combine_average_lookup|done].
Qed.

Lemma combine_nothing this other :
  maps_empty other → (combine this other).1 = this.
Proof.
  intros (Ha & Hp & Hv). apply container_eq; [|done]. simpl.
  unfold combine_additional, combine_pershot, combine_average.
  rewrite Ha, Hp, Hv, !map_fold_empty. by repeat split.
Qed.

(** X7.  Combining with a container that holds nothing, in either form,
    leaves [this] exactly as it was. *)
Theorem combine_empty_other this other :
  maps_empty other →
  (combine this other).1 = this ∧ (combine_move this other).1 = this.
Proof.
  intros Hempty. rewrite combine_move_this.
  split; by apply combine_nothing.
Qed.

(** X8.  A container that was the source of a move-combine can be combined
    again without effect: the second call finds it empty. *)
Theorem combine_move_again this other :
  (combine_move (combine_move this other).1 (combine_move this other).2).1
  = (combine_move this other).1
  ∧ (combine (combine_move this other).1 (combine_move this other).2).1
    = (combine_move this other).1.
Proof.
  assert (maps_empty (combine_move this other).2) as Hempty
    by by repeat split.
  rewrite combine_move_this.
  split; by apply combine_nothing.
Qed.

(** X9.  Combining into a container that holds nothing reproduces the maps
    of [other], provided the default-constructed snapshots are neutral on
    the left of the merges; the flag stays that of [this]. *)
Theorem combine_into_empty this other :
  LeftId (=) (@pershot_new T PershotSnapshot _) pershot_combine →
  LeftId (=) (@average_new T AverageSnapshot _) average_combine →
  maps_empty this →
  same_maps (combine this other).1 other
  ∧ enabled_ (combine this other).1 = enabled_ this.
Proof.
  intros Hpi Hai (Ha & Hp & Hv). split; [|done].
  unfold same_maps. simpl.
  unfold combine_additional, combine_pershot, combine_average.
  rewrite Ha, Hp, Hv, fold_insert_union, (right_id_L ∅ (∪)).
  rewrite !fold_combine_into_empty by done. done.
Qed.

(** X10.  The order of the operands does not matter for the maps when the
    two containers have no extras key in common, the merges are commutative
    and the default-constructed snapshots are neutral on the left. *)
Theorem combine_comm this other :
  Comm (=) (@pershot_combine T PershotSnapshot _) →
  LeftId (=) (@pershot_new T PershotSnapshot _) pershot_combine →
  Comm (=) (@average_combine T AverageSnapshot _) →
  LeftId (=) (@average_new T AverageSnapshot _) average_combine →
  dom (additional_data_ this) ## dom (additional_data_ other) →
  same_maps (combine this other).1 (combine other this).1.
Proof.
  intros Hpc Hpi Hac Hai Hdisj. unfold same_maps. simpl.
  unfold combine_additional, combine_pershot, combine_average.
  rewrite !fold_insert_union.
  split; [|split].
  - apply map_union_comm. by apply map_disjoint_dom.
  - by apply fold_combine_comm.
  - by apply fold_combine_comm.
Qed.

(** X11.  A chain of [+=] can be regrouped: accumulating [y] and then the
    rest into [d] leaves in [d] what one [+=] of the accumulated
    [y], rest leaves, provided the merges are associative and the
    default-constructed snapshots neutral on the left. *)
Theorem accumulate_regroup d y
    (ys : list (DataContainer T PershotSnapshot AverageSnapshot)) :
  Assoc (=) (@pershot_combine T PershotSnapshot _) →
  LeftId (=) (@pershot_new T PershotSnapshot _) pershot_combine →
  Assoc (=) (@average_combine T AverageSnapshot _) →
  LeftId (=) (@average_new T AverageSnapshot _) average_combine →
  accumulate d (y :: ys) = (op_add_assign d (accumulate y ys)).1.
Proof.
  intros Hpa Hpi Haa Hai. unfold accumulate, op_add_assign. cbn [foldl].
  revert d y. induction ys as [|z zs IH]; intros d y; [done|].
  cbn [foldl]. rewrite (combine_assoc_maps d y z Hpa Hpi Haa Hai). apply IH.
Qed.

(** *** Export *)

(** X12.  Exporting an enabled container that holds anything into a
    document that is neither null nor an object throws, and the document
    is not modified. *)
Theorem to_json_throws_on_non_object js d :
  enabled_ d = true →
  indexable js = false →
  ¬ maps_empty d →
  to_json js d = Threw js.
Proof.
  intros Hen Hjs Hne. unfold indexable in Hjs.
  destruct (members js) as [mj|] eqn:Hm; [done|].
  rewrite (to_json_rejected js d Hen Hm).
  rewrite decide_False; [done|].
  intros (? & ? & ?). apply Hne. by repeat split.
Qed.

(** X13.  When the export of an enabled container returns: exactly when
    the extras can be written (there are none, or the document is null or
    an object) and the snapshots can be written (there are none, or the
    target is fit in the sense of [export_target_ok]). *)
Theorem to_json_returns_iff js d :
  enabled_ d = true →
  (∃ js', to_json js d = Returned js')
  ↔ (additional_data_ d = ∅ ∨ indexable js = true)
    ∧ ((average_snapshots_ d = ∅ ∧ pershot_snapshots_ d = ∅)
       ∨ export_target_ok js d = true).
Proof.
  intros Hen. destruct (members js) as [mj|] eqn:Hm.
  - rewrite (to_json_closed js d mj Hen Hm). cbv zeta.
    rewrite (export_target_ok_slot js d mj Hm).
    assert (indexable js = true) as Hjs
      by (apply indexable_members; by exists mj).
    destruct (decide (average_snapshots_ d = ∅ ∧ pershot_snapshots_ d = ∅))
      as [Hs|Hs].
    + split; [intros _; split; [by right|by left]|intros _; by eexists].
    + unfold indexable at 2.
      destruct (members (default JNull
                  (((value_to_json <$> additional_data_ d) ∪ mj)
                     !! "snapshots"))) as [inner|].
      * split; [intros _; split; by right|intros _; by eexists].
      * split; [by intros [js' ?]|].
        by intros [_ [?|?]].
  - rewrite (to_json_rejected js d Hen Hm).
    assert (indexable js = false) as Hjs by (unfold indexable; by rewrite Hm).
    assert (export_target_ok js d = false) as Hok
      by (unfold export_target_ok; by rewrite Hjs).
    rewrite Hjs, Hok.
    destruct (decide (additional_data_ d = ∅
                      ∧ average_snapshots_ d = ∅
                      ∧ pershot_snapshots_ d = ∅)) as [(? & ? & ?)|Hne].
    + split; [intros _; split; by left|intros _; by eexists].
    + split; [by intros [js' ?]|].
      intros [[?|?] [[? ?]|?]]; try done. by destruct Hne.
Qed.

(** X14.  In the document an export returns, every extra of the enabled
    container whose key is not "snapshots" is found at the top level under
    its key, converted to JSON. *)
Theorem to_json_exports_extras js js' d key v :
  enabled_ d = true →
  to_json js d = Returned js' →
  additional_data_ d !! key = Some v →
  key ≠ "snapshots" →
  json_find js' key = Some (value_to_json v).
Proof.
  intros Hen Hret Hkey Hne.
  assert (additional_data_ d ≠ ∅) as He
    by (intros He; by rewrite He, lookup_empty in Hkey).
  assert (((value_to_json <$> additional_data_ d) !! key)
          = Some (value_to_json v)) as HE by (by rewrite lookup_fmap, Hkey).
  destruct (members js) as [mj|] eqn:Hm.
  - rewrite (to_json_closed js d mj Hen Hm) in Hret. cbv zeta in Hret.
    rewrite (decide_False (P := additional_data_ d = ∅)) in Hret by done.
    destruct (decide (average_snapshots_ d = ∅ ∧ pershot_snapshots_ d = ∅)).
    + injection Hret as <-. simpl. by apply lookup_union_Some_l.
    + destruct (members (default JNull _)) as [inner|]; [|done].
      injection Hret as <-. simpl. rewrite lookup_insert_ne by done.
      by apply lookup_union_Some_l.
  - rewrite (to_json_rejected js d Hen Hm) in Hret.
    rewrite decide_False in Hret; [done|]. by intros (? & _ & _).
Qed.

(** X15.  In the document an export returns, every average snapshot of the
    enabled container whose kind has no per-shot snapshot is found under
    "snapshots" and its kind, converted to JSON. *)
Theorem to_json_exports_average js js' d kind a :
  enabled_ d = true →
  to_json js d = Returned js' →
  average_snapshots_ d !! kind = Some a →
  pershot_snapshots_ d !! kind = None →
  json_find2 js' "snapshots" kind = Some (average_to_json a).
Proof.
  intros Hen Hret Ha Hp.
  assert (average_snapshots_ d ≠ ∅) as Hav
    by (intros Hav; by rewrite Hav, lookup_empty in Ha).
  destruct (members js) as [mj|] eqn:Hm.
  - rewrite (to_json_closed js d mj Hen Hm) in Hret. cbv zeta in Hret.
    rewrite decide_False in Hret by (by intros [? _]).
    destruct (members (default JNull _)) as [inner|]; [|done].
    injection Hret as <-. unfold json_find2. simpl.
    rewrite lookup_insert_eq. simpl.
    rewrite lookup_union_r by (by rewrite lookup_fmap, Hp).
    apply lookup_union_Some_l. by rewrite lookup_fmap, Ha.
  - rewrite (to_json_rejected js d Hen Hm) in Hret.
    rewrite decide_False in Hret; [done|]. by intros (_ & ? & _).
Qed.

Lemma union_absorb_insert (E mj : gmap string json_t) (s : string)
    (x y : json_t) :
  <[s := x]> (E ∪ <[s := y]> (E ∪ mj)) = <[s := x]> (E ∪ mj).
Proof.
  apply map_eq. intros k. destruct (decide (s = k)) as [->|Hne].
  - by rewrite !lookup_insert_eq.
  - rewrite !lookup_insert_ne by done.
    rewrite !lookup_union, lookup_insert_ne by done.
    rewrite lookup_union. by destruct (E !! k), (mj !! k).
Qed.

Lemma union_absorb_twice (P A inner : gmap string json_t) :
  P ∪ (A ∪ (P ∪ (A ∪ inner))) = P ∪ (A ∪ inner).
Proof.
  apply map_eq. intros k. rewrite !lookup_union.
  by destruct (P !! k), (A !! k), (inner !! k).
Qed.

(** X16.  Exporting is idempotent: exporting the container once more into
    the document a first export returned returns that document
    unchanged. *)
Theorem to_json_idempotent js js1 d :
  to_json js d = Returned js1 → to_json js1 d = Returned js1.
Proof.
  destruct (enabled_ d) eqn:Hen.
  2:{ unfold to_json. rewrite Hen. by intros [= <-]. }
  destruct (members js) as [mj|] eqn:Hm.
  2:{ intros Hret. pose proof Hret as Hret'.
      rewrite (to_json_rejected js d Hen Hm) in Hret'.
      destruct (decide _); [|done]. by injection Hret' as <-. }
  intros Hret. pose proof Hret as Hret'.
  rewrite (to_json_closed js d mj Hen Hm) in Hret'. cbv zeta in Hret'.
  destruct (decide (average_snapshots_ d = ∅ ∧ pershot_snapshots_ d = ∅))
    as [Hs|Hs].
  - destruct (decide (additional_data_ d = ∅)) as [He|He];
      injection Hret' as <-; [done|].
    rewrite (to_json_closed (JObject _) d _ Hen eq_refl). cbv zeta.
    rewrite (decide_True (P := _ ∧ _)) by done.
    rewrite (decide_False (P := additional_data_ d = ∅)) by done.
    by rewrite (assoc_L (∪)), (idemp_L (∪)).
  - destruct (members (default JNull
                (((value_to_json <$> additional_data_ d) ∪ mj)
                   !! "snapshots"))) as [inner|] eqn:Hin; [|done].
    injection Hret' as <-.
    rewrite (to_json_closed (JObject _) d _ Hen eq_refl). cbv zeta.
    rewrite (decide_False (P := _ ∧ _)) by done.
    destruct ((value_to_json <$> additional_data_ d) !! "snapshots")
      as [v|] eqn:Hv.
    + rewrite (lookup_union_Some_l _ _ _ v Hv).
      rewrite (lookup_union_Some_l _ _ _ v Hv) in Hin. rewrite Hin.
      by rewrite union_absorb_insert.
    + rewrite lookup_union_r by done. rewrite lookup_insert_eq. simpl.
      by rewrite union_absorb_twice, union_absorb_insert.
Qed.

(** X17.  Insertions into different maps do not interfere: an extra, a
    per-shot record and an average record can be made in any order. *)
Theorem insertions_into_different_maps_commute
    o1 o2 o3 key data type1 label1 datum1 type2 label2 memory datum2
    variance d :
  add_pershot_snapshot o2 type1 label1 datum1
    (add_additional_data o1 key data d)
  = add_additional_data o1 key data
      (add_pershot_snapshot o2 type1 label1 datum1 d)
  ∧ add_average_snapshot o3 type2 label2 memory datum2 variance
      (add_additional_data o1 key data d)
    = add_additional_data o1 key data
        (add_average_snapshot o3 type2 label2 memory datum2 variance d)
  ∧ add_average_snapshot o3 type2 label2 memory datum2 variance
      (add_pershot_snapshot o2 type1 label1 datum1 d)
    = add_pershot_snapshot o2 type1 label1 datum1
        (add_average_snapshot o3 type2 label2 memory datum2 variance d).
Proof.
  split; [|split].
  - destruct o1, o2; unfold add_additional_data, add_pershot_snapshot;
      destruct (enabled_ d) eqn:Hd; simpl; by rewrite ?Hd.
  - destruct o1, o3; unfold add_additional_data, add_average_snapshot;
      destruct (enabled_ d) eqn:Hd; simpl; by rewrite ?Hd.
  - destruct o2, o3; unfold add_pershot_snapshot, add_average_snapshot;
      destruct (enabled_ d) eqn:Hd; simpl; by rewrite ?Hd.
Qed.

End FurtherProperties.

(* ================================================================== *)
(** ** The further properties on concrete containers *)
(* ================================================================== *)

Section FurtherInstances.
Import Tally.

Lemma tally_extras_disjoint :
  dom (additional_data_ dA) ## dom (additional_data_ dC).
Proof. apply (bool_decide_unpack _). by vm_compute. Qed.

Lemma tally_dA_not_empty : ¬ maps_empty dA.
Proof.
  intros (Ha & _). apply (f_equal (λ m, m !! "shots")) in Ha.
  vm_compute in Ha. discriminate.
Qed.

Lemma add_additional_data_stores_witness :
  enabled_ dA = true
  ∧ additional_data_ dA !! "shots" = Some 10
  ∧ additional_data_ (add_additional_data by_move "shots" 11 dA) !! "shots"
    = Some 11.
Proof.
  split; [reflexivity|]. split; [reflexivity|].
  exact (proj1 (add_additional_data_stores by_move "shots" 11 dA eq_refl)).
Defined.

Lemma add_pershot_snapshot_records_witness :
  enabled_ dA = true
  ∧ pershot_snapshots_ (add_pershot_snapshot by_ref "memory" "01" 2 dA)
      !! "memory"
    = Some (pershot_add_data "01" 2
              (default pershot_new (pershot_snapshots_ dA !! "memory"))).
Proof.
  split; [reflexivity|].
  exact (proj1 (add_pershot_snapshot_records by_ref "memory" "01" 2 dA
                  eq_refl)).
Defined.

Lemma add_average_snapshot_records_witness :
  enabled_ dB = true
  ∧ average_snapshots_
      (add_average_snapshot by_const_ref "expval" "z" "0x0" 6 true dB)
      !! "expval"
    = Some (average_add_data "z" "0x0" 6 true
              (default average_new (average_snapshots_ dB !! "expval"))).
Proof.
  split; [reflexivity|].
  exact (proj1 (add_average_snapshot_records by_const_ref "expval" "z" "0x0"
                  6 true dB eq_refl)).
Defined.

Lemma add_additional_data_twice_witness :
  add_additional_data by_ref "shots" 2
    (add_additional_data by_move "shots" 1 dA)
  = add_additional_data by_ref "shots" 2 dA
  ∧ add_additional_data by_ref "seed" 2
      (add_additional_data by_move "shots" 1 dA)
    = add_additional_data by_move "shots" 1
        (add_additional_data by_ref "seed" 2 dA).
Proof.
  split.
  - apply (add_additional_data_twice by_move by_ref "shots" "shots" 1 2 dA).
    reflexivity.
  - apply (add_additional_data_twice by_move by_ref "shots" "seed" 1 2 dA).
    discriminate.
Defined.

Lemma combine_empty_other_witness :
  maps_empty (clear dB)
  ∧ (combine dA (clear dB)).1 = dA
  ∧ (combine_move dA (clear dB)).1 = dA.
Proof.
  split; [by repeat split|].
  apply (combine_empty_other dA (clear dB)). by repeat split.
Defined.

Lemma combine_into_empty_witness :
  maps_empty (clear dC)
  ∧ same_maps (combine (clear dC) dA).1 dA
  ∧ enabled_ (combine (clear dC) dA).1 = false.
Proof.
  split; [by repeat split|].
  apply (combine_into_empty (clear dC) dA
           tally_pershot_left_id tally_average_left_id).
  by repeat split.
Defined.

Lemma combine_comm_witness :
  dom (additional_data_ dA) ## dom (additional_data_ dC)
  ∧ same_maps (combine dA dC).1 (combine dC dA).1.
Proof.
  split; [exact tally_extras_disjoint|].
  exact (combine_comm dA dC
           tally_pershot_comm tally_pershot_left_id
           tally_average_comm tally_average_left_id
           tally_extras_disjoint).
Defined.

Lemma accumulate_regroup_witness :
  accumulate dA [dB; dC] = (op_add_assign dA (accumulate dB [dC])).1.
Proof.
  exact (accumulate_regroup dA dB [dC]
           tally_pershot_assoc tally_pershot_left_id
           tally_average_assoc tally_average_left_id).
Defined.

Lemma to_json_throws_on_non_object_witness :
  enabled_ dA = true
  ∧ indexable (JArray []) = false
  ∧ to_json (JArray []) dA = Threw (JArray []).
Proof.
  split; [reflexivity|]. split; [reflexivity|].
  exact (to_json_throws_on_non_object (JArray []) dA eq_refl eq_refl
           tally_dA_not_empty).
Defined.

Lemma to_json_returns_iff_witness :
  enabled_ dBoth = true
  ∧ export_target_ok doc dBoth = true
  ∧ ∃ js', to_json doc dBoth = Returned js'.
Proof.
  split; [reflexivity|]. split; [reflexivity|].
  apply (to_json_returns_iff doc dBoth eq_refl).
  split; [by left|by right].
Defined.

Lemma to_json_exports_extras_witness :
  enabled_ dA = true
  ∧ to_json doc dA = Returned (final (to_json doc dA))
  ∧ additional_data_ dA !! "shots" = Some 10
  ∧ json_find (final (to_json doc dA)) "shots" = Some (JInteger 10).
Proof.
  split; [reflexivity|]. split; [reflexivity|]. split; [reflexivity|].
  apply (to_json_exports_extras doc (final (to_json doc dA)) dA "shots" 10);
    [reflexivity|reflexivity|reflexivity|discriminate].
Defined.

Lemma to_json_exports_average_witness :
  enabled_ dB = true
  ∧ to_json doc dB = Returned (final (to_json doc dB))
  ∧ average_snapshots_ dB !! "expval" = Some (1, 5)
  ∧ pershot_snapshots_ dB !! "expval" = None
  ∧ json_find2 (final (to_json doc dB)) "snapshots" "expval"
    = Some (average_to_json ((1, 5) : Tally.average)).
Proof.
  split; [reflexivity|]. split; [reflexivity|]. split; [reflexivity|].
  split; [reflexivity|].
  apply (to_json_exports_average doc (final (to_json doc dB)) dB "expval"
           (1, 5)); reflexivity.
Defined.

Lemma to_json_idempotent_witness :
  to_json doc dBoth = Returned (final (to_json doc dBoth))
  ∧ to_json (final (to_json doc dBoth)) dBoth
    = Returned (final (to_json doc dBoth)).
Proof.
  split; [reflexivity|].
  apply (to_json_idempotent doc (final (to_json doc dBoth)) dBoth).
  reflexivity.
Defined.

End FurtherInstances.
